(** * soapysdr-sys: the stream-setup wrapper of [wrapper.c] / [wrapper.h]

    The C translation unit defines one function,
    [_rust_wrapper_SoapySDRDevice_setupStream], whose body is chosen by the
    preprocessor from the value of [SOAPY_SDR_API_VERSION].  The function is
    embedded as a small program over two kinds of effects: calls into the
    SoapySDR library and accesses to caller memory.  The library itself is not
    part of the translation unit; it is a parameter of the interpreter. *)

From Stdlib Require Import ZArith List Lia String.
From stdpp Require Import base option gmap list strings.

Local Open Scope Z_scope.

(** ** Machine values

    Pointers, [int] and [size_t] values are all carried as [Z]; the wrapper
    does no arithmetic on them, so no wrap-around is ever involved.  Memory is
    a finite map from the addresses of allocated cells to their contents. *)

Abbreviation Mem := (gmap Z Z).

(** The null pointer. *)
Definition NULL : Z := 0.

(** ** Entry points of the library that the headers make visible

    [SoapySDRDevice_setupStream] exists with two signatures, one per calling
    convention; they are two constructors here. *)

Inductive LibCall : Type :=
| SoapySDRDevice_setupStream_legacy
    (device out_stream direction format channels numChans args : Z)
| SoapySDRDevice_setupStream_modern
    (device direction format channels numChans args : Z)
| SoapySDRDevice_lastStatus
| SoapySDRDevice_closeStream (device stream : Z)
| SoapySDRDevice_unmake (device : Z)
| SoapySDR_free (p : Z).

(** ** Programs: library calls and memory accesses, in sequence *)

Inductive Prog (A : Type) : Type :=
| Ret (a : A)
| Call (c : LibCall) (k : Z -> Prog A)
| Store (p v : Z) (k : Prog A)
| Load (p : Z) (k : Z -> Prog A).

Arguments Ret {A} a.
Arguments Call {A} c k.
Arguments Store {A} p v k.
Arguments Load {A} p k.

Fixpoint bind {A B : Type} (m : Prog A) (f : A -> Prog B) : Prog B :=
  match m with
  | Ret a => f a
  | Call c k => Call c (fun r => bind (k r) f)
  | Store p v k => Store p v (bind k f)
  | Load p k => Load p (fun r => bind (k r) f)
  end.

Definition call (c : LibCall) : Prog Z := Call c Ret.
Definition poke (p v : Z) : Prog unit := Store p v (Ret tt).
Definition peek (p : Z) : Prog Z := Load p Ret.

(** [Prog] is a monad; the instances give it stdpp's [x ← m; k] and
    [m;; k] notations. *)
#[global] Instance Prog_ret : MRet Prog := fun A a => Ret a.
#[global] Instance Prog_bind : MBind Prog := fun A B f m => bind m f.

(** ** wrapper.c *)

(** [#if SOAPY_SDR_API_VERSION < 0x00080000] branch, line 13. *)
Definition legacy_body
    (device out_stream direction format channels numChans args : Z) : Prog Z :=
  call (SoapySDRDevice_setupStream_legacy
          device out_stream direction format channels numChans args).

(** [#else] branch, lines 15-16. *)
Definition modern_body
    (device out_stream direction format channels numChans args : Z) : Prog Z :=
  h ← call (SoapySDRDevice_setupStream_modern
               device direction format channels numChans args);
  poke out_stream h;;
  call SoapySDRDevice_lastStatus.

(** The function as the preprocessor leaves it for a given value of the
    macro [SOAPY_SDR_API_VERSION]. *)
Definition _rust_wrapper_SoapySDRDevice_setupStream
    (SOAPY_SDR_API_VERSION : Z)
    (device out_stream direction format channels numChans args : Z) : Prog Z :=
  if SOAPY_SDR_API_VERSION <? 0x00080000
  then legacy_body device out_stream direction format channels numChans args
  else modern_body device out_stream direction format channels numChans args.

(** ** wrapper.h: the names the header itself declares *)

Definition wrapper_h_declarations (SOAPY_SDR_API_VERSION : Z) : list string :=
  "_rust_wrapper_SoapySDRDevice_setupStream"%string
  :: (if SOAPY_SDR_API_VERSION <? 0x00080000
      then ["SoapySDR_free"%string]
      else []).

(** ** Running a program against a library *)

Record World (LibState : Type) : Type :=
  mkWorld { mem : Mem; lib : LibState }.
Arguments mkWorld {LibState} mem lib.
Arguments mem {LibState} w.
Arguments lib {LibState} w.

Definition set_mem {LibState : Type} (w : World LibState) (m : Mem)
  : World LibState :=
  mkWorld m (lib w).

(** What an observer of the execution sees: each library call with the
    memory it was issued in and the value it returned, and each memory
    access of the program itself. *)
Inductive Obs : Type :=
| ObsCall (c : LibCall) (m : Mem) (r : Z)
| ObsStore (p v : Z)
| ObsLoad (p v : Z).

(** [*p = v]: defined only when [p] is the address of an allocated cell. *)
Definition store (m : Mem) (p v : Z) : option Mem :=
  match m !! p with
  | Some _ => Some (<[p := v]> m)
  | None => None
  end.

(** What a callee obtains by reading [n] consecutive cells from [p]: the
    characters of [format], the entries of [channels]. *)
Fixpoint read_cells (m : Mem) (p : Z) (n : nat) : option (list Z) :=
  match n with
  | O => Some []
  | S n' =>
      match m !! p, read_cells m (p + 1) n' with
      | Some x, Some xs => Some (x :: xs)
      | _, _ => None
      end
  end.

Section Run.
Context {LibState : Type}.
(** The library: each entry point maps the world it is called in to the
    value it returns and the world it leaves. *)
Variable lib_call : LibCall -> World LibState -> Z * World LibState.

Fixpoint run {A : Type} (p : Prog A) (w : World LibState)
  : option (A * World LibState * list Obs) :=
  match p with
  | Ret a => Some (a, w, [])
  | Call c k =>
      let '(r, w') := lib_call c w in
      match run (k r) w' with
      | Some (a, w'', t) => Some (a, w'', ObsCall c (mem w) r :: t)
      | None => None
      end
  | Store p v k =>
      match store (mem w) p v with
      | Some m' =>
          match run k (set_mem w m') with
          | Some (a, w'', t) => Some (a, w'', ObsStore p v :: t)
          | None => None
          end
      | None => None
      end
  | Load p k =>
      match mem w !! p with
      | Some v =>
          match run (k v) w with
          | Some (a, w'', t) => Some (a, w'', ObsLoad p v :: t)
          | None => None
          end
      | None => None
      end
  end.
End Run.

(** ** Reading a trace *)

Definition lib_calls (t : list Obs) : list LibCall :=
  omap (fun o => match o with ObsCall c _ _ => Some c | _ => None end) t.

Definition own_stores (t : list Obs) : list (Z * Z) :=
  omap (fun o => match o with ObsStore p v => Some (p, v) | _ => None end) t.

Definition is_setupStream (c : LibCall) : bool :=
  match c with
  | SoapySDRDevice_setupStream_legacy _ _ _ _ _ _ _
  | SoapySDRDevice_setupStream_modern _ _ _ _ _ _ => true
  | _ => false
  end.

(** The six stream parameters a stream-setup call carries, in the order of
    the C parameter list. *)
Definition setup_params (c : LibCall) : option (Z * Z * Z * Z * Z * Z) :=
  match c with
  | SoapySDRDevice_setupStream_legacy d _ dir f ch n a
  | SoapySDRDevice_setupStream_modern d dir f ch n a =>
      Some (d, dir, f, ch, n, a)
  | _ => None
  end.

(** The status code for success, and a slot that holds a non-null handle. *)
Definition success (status : Z) : Prop := status = 0.
Definition holds_handle (m : Mem) (slot : Z) : Prop :=
  exists h, m !! slot = Some h /\ h <> NULL.

(** The events the wrapper is entitled to: a delegated stream-setup or
    last-status call, or a store to the output slot. *)
Definition delegated_or_slot_write (out_stream : Z) (o : Obs) : Prop :=
  match o with
  | ObsCall c _ _ => is_setupStream c = true \/ c = SoapySDRDevice_lastStatus
  | ObsStore p _ => p = out_stream
  | ObsLoad _ _ => False
  end.

(** SoapySDR packs a version number as
    [(major << 24) | (minor << 16) | increment]. *)
Definition api_version (major minor increment : Z) : Z :=
  Z.lor (Z.lor (Z.shiftl major 24) (Z.shiftl minor 16)) increment.

(** ** Test doubles for the library and a caller *)

Module Mock.
(** A library double whose state is the status of its most recent
    stream-setup call.  Both conventions of the setup entry point produce
    the given [handle] and [status]; the legacy one delivers the handle
    through its output parameter. *)
Definition library (handle status : Z) (c : LibCall) (w : World Z)
  : Z * World Z :=
  match c with
  | SoapySDRDevice_setupStream_legacy _ out _ _ _ _ _ =>
      (status, mkWorld (<[out := handle]> (mem w)) status)
  | SoapySDRDevice_setupStream_modern _ _ _ _ _ _ =>
      (handle, mkWorld (mem w) status)
  | SoapySDRDevice_lastStatus => (lib w, w)
  | _ => (0, w)
  end.

(** A legacy library that fails without touching the output slot. *)
Definition failing_legacy (status : Z) (c : LibCall) (w : World Z)
  : Z * World Z :=
  match c with
  | SoapySDRDevice_setupStream_legacy _ _ _ _ _ _ _ =>
      (status, mkWorld (mem w) status)
  | SoapySDRDevice_lastStatus => (lib w, w)
  | _ => (0, w)
  end.

(** A library double without any effect on the world: it only answers. *)
Definition inert (handle status : Z) (c : LibCall) (w : World unit)
  : Z * World unit :=
  match c with
  | SoapySDRDevice_setupStream_legacy _ _ _ _ _ _ _ => (status, w)
  | SoapySDRDevice_setupStream_modern _ _ _ _ _ _ => (handle, w)
  | SoapySDRDevice_lastStatus => (status, w)
  | _ => (0, w)
  end.

(** The caller of the two concrete scenarios: format "CF32" at 100,
    channels [0; 1] at 200, an empty keyword-argument structure at 300,
    and the output slot at 400, initially holding the stale value
    [0xDEAD].  The device handle 500 is opaque; [RX] is the receive
    direction. *)
Definition RX : Z := 1.
Definition dev : Z := 500.
Definition fmt : Z := 100.
Definition chans : Z := 200.
Definition kwargs : Z := 300.
Definition slot : Z := 400.

Definition caller_mem : Mem :=
  list_to_map
    [(100, 67); (101, 70); (102, 51); (103, 50); (104, 0);
     (200, 0); (201, 1);
     (300, 0); (301, 0); (302, 0);
     (400, 0xDEAD)].

Definition caller_world : World Z := mkWorld caller_mem 0.
Definition caller_world_inert : World unit := mkWorld caller_mem tt.

Definition legacy_version : Z := api_version 0 7 0.
Definition modern_version : Z := api_version 0 8 0.
End Mock.

(** ** Basic facts about running the two bodies *)

Section Bodies.
Context {LibState : Type}.
Variable lib_call : LibCall -> World LibState -> Z * World LibState.
Variables device out_stream direction format channels numChans args : Z.

Let setup_legacy : LibCall :=
  SoapySDRDevice_setupStream_legacy
    device out_stream direction format channels numChans args.
Let setup_modern : LibCall :=
  SoapySDRDevice_setupStream_modern
    device direction format channels numChans args.

Lemma run_legacy_body (w : World LibState) :
  run lib_call
    (legacy_body device out_stream direction format channels numChans args) w
  = Some ((lib_call setup_legacy w).1, (lib_call setup_legacy w).2,
          [ObsCall setup_legacy (mem w) (lib_call setup_legacy w).1]).
Proof.
  unfold legacy_body, call. simpl. fold setup_legacy.
  destruct (lib_call setup_legacy w) as [r w']. reflexivity.
Qed.

Lemma run_modern_body (w : World LibState) :
  run lib_call
    (modern_body device out_stream direction format channels numChans args) w
  = let h := (lib_call setup_modern w).1 in
    let w1 := (lib_call setup_modern w).2 in
    match store (mem w1) out_stream h with
    | Some m2 =>
        let w2 := set_mem w1 m2 in
        Some ((lib_call SoapySDRDevice_lastStatus w2).1,
              (lib_call SoapySDRDevice_lastStatus w2).2,
              [ObsCall setup_modern (mem w) h;
               ObsStore out_stream h;
               ObsCall SoapySDRDevice_lastStatus m2
                 (lib_call SoapySDRDevice_lastStatus w2).1])
    | None => None
    end.
Proof.
  unfold modern_body, call, poke. simpl. fold setup_modern.
  destruct (lib_call setup_modern w) as [h w1]. simpl.
  destruct (store (mem w1) out_stream h) as [m2|]; [|reflexivity].
  destruct (lib_call SoapySDRDevice_lastStatus (set_mem w1 m2)) as [s w3].
  reflexivity.
Qed.

Lemma wrapper_legacy (v : Z) :
  v < 0x00080000 ->
  _rust_wrapper_SoapySDRDevice_setupStream v
    device out_stream direction format channels numChans args
  = legacy_body device out_stream direction format channels numChans args.
Proof.
  intros Hv. unfold _rust_wrapper_SoapySDRDevice_setupStream.
  destruct (Z.ltb_spec v 0x00080000); [reflexivity | lia].
Qed.

Lemma wrapper_modern (v : Z) :
  0x00080000 <= v ->
  _rust_wrapper_SoapySDRDevice_setupStream v
    device out_stream direction format channels numChans args
  = modern_body device out_stream direction format channels numChans args.
Proof.
  intros Hv. unfold _rust_wrapper_SoapySDRDevice_setupStream.
  destruct (Z.ltb_spec v 0x00080000); [lia | reflexivity].
Qed.

Lemma store_Some (m m' : Mem) (p v : Z) :
  store m p v = Some m' <-> is_Some (m !! p) /\ m' = <[p := v]> m.
Proof.
  unfold store. destruct (m !! p) as [x|]; split.
  - intros [= <-]. split; [eexists; reflexivity | reflexivity].
  - intros [_ ->]. reflexivity.
  - discriminate.
  - intros [[x Hx] _]. discriminate.
Qed.

(** The modern body has no defined result when [out_stream] is not the
    address of an allocated cell at the time of the store. *)
Lemma run_modern_body_unwritable (w : World LibState) :
  mem (lib_call setup_modern w).2 !! out_stream = None ->
  run lib_call
    (modern_body device out_stream direction format channels numChans args) w
  = None.
Proof.
  intros Hnone. rewrite run_modern_body. simpl.
  unfold store. rewrite Hnone. reflexivity.
Qed.

(** Every successful run of the wrapper is of one of two shapes. *)
Lemma run_wrapper_inv (v : Z) (w w' : World LibState) (r : Z) (t : list Obs) :
  run lib_call
    (_rust_wrapper_SoapySDRDevice_setupStream v
       device out_stream direction format channels numChans args) w
  = Some (r, w', t) ->
  (v < 0x00080000 /\ lib_call setup_legacy w = (r, w')
     /\ t = [ObsCall setup_legacy (mem w) r])
  \/ (0x00080000 <= v /\
      exists h w1,
        lib_call setup_modern w = (h, w1)
        /\ is_Some (mem w1 !! out_stream)
        /\ lib_call SoapySDRDevice_lastStatus
             (set_mem w1 (<[out_stream := h]> (mem w1))) = (r, w')
        /\ t = [ObsCall setup_modern (mem w) h;
                ObsStore out_stream h;
                ObsCall SoapySDRDevice_lastStatus
                  (<[out_stream := h]> (mem w1)) r]).
Proof.
  destruct (Z.lt_ge_cases v 0x00080000) as [Hv|Hv].
  - rewrite (wrapper_legacy v Hv), run_legacy_body.
    destruct (lib_call setup_legacy w) as [r0 w0]. simpl.
    intros [= <- <- <-]. left. auto.
  - rewrite (wrapper_modern v Hv), run_modern_body.
    destruct (lib_call setup_modern w) as [h w1]. simpl.
    destruct (store (mem w1) out_stream h) as [m2|] eqn:Hst; [|discriminate].
    apply store_Some in Hst as [Hal ->].
    destruct (lib_call SoapySDRDevice_lastStatus
                (set_mem w1 (<[out_stream := h]> (mem w1)))) as [s w3] eqn:Hls.
    simpl. intros [= <- <- <-]. right. split; [exact Hv|].
    exists h, w1. auto.
Qed.
End Bodies.

(** ** The wrapper against an arbitrary library *)

Section Wrapper.
Context {LibState : Type}.
Variable lib_call : LibCall -> World LibState -> Z * World LibState.

(** C1.  Modern build ([SOAPY_SDR_API_VERSION >= 0x00080000]): whenever the
    output parameter designates a writable slot, every invocation calls the
    library's stream-setup entry point (which returns the handle [h]), then
    writes [h] through [out_stream], then calls the last-status query, and
    returns the queried status [s] as its own result.  With [h = 0] and
    [s = -1] the wrapper thus returns [-1]. *)
Theorem modern_returns_queried_status
    (v device out_stream direction format channels numChans args h s : Z)
    (w w1 w3 : World LibState) :
  0x00080000 <= v ->
  lib_call (SoapySDRDevice_setupStream_modern
              device direction format channels numChans args) w = (h, w1) ->
  is_Some (mem w1 !! out_stream) ->
  lib_call SoapySDRDevice_lastStatus
    (set_mem w1 (<[out_stream := h]> (mem w1))) = (s, w3) ->
  run lib_call
    (_rust_wrapper_SoapySDRDevice_setupStream v
       device out_stream direction format channels numChans args) w
  = Some (s, w3,
          [ObsCall (SoapySDRDevice_setupStream_modern
                      device direction format channels numChans args) (mem w) h;
           ObsStore out_stream h;
           ObsCall SoapySDRDevice_lastStatus (<[out_stream := h]> (mem w1)) s]).
Proof.
  intros Hv Hsetup Hslot Hlast.
  rewrite (wrapper_modern _ _ _ _ _ _ _ _ Hv), run_modern_body.
  rewrite Hsetup. simpl.
  assert (store (mem w1) out_stream h = Some (<[out_stream := h]> (mem w1)))
    as -> by (apply store_Some; auto).
  simpl. rewrite Hlast. reflexivity.
Qed.

(** C2.  Legacy build ([SOAPY_SDR_API_VERSION < 0x00080000]): every
    invocation makes the single library call
    [SoapySDRDevice_setupStream(device, out_stream, ...)], handing the
    caller's output parameter through, and returns the status [r] that call
    returned; the world it leaves is the one the library left, and the
    wrapper performs no store of its own.  If the library returned [0] and
    left [0xABCD] in the slot, the caller sees exactly that. *)
Theorem legacy_returns_library_status
    (v device out_stream direction format channels numChans args r : Z)
    (w w' : World LibState) :
  v < 0x00080000 ->
  lib_call (SoapySDRDevice_setupStream_legacy
              device out_stream direction format channels numChans args) w
  = (r, w') ->
  let t := [ObsCall (SoapySDRDevice_setupStream_legacy
                       device out_stream direction format channels numChans args)
                    (mem w) r] in
  run lib_call
    (_rust_wrapper_SoapySDRDevice_setupStream v
       device out_stream direction format channels numChans args) w
  = Some (r, w', t)
  /\ own_stores t = [].
Proof.
  intros Hv Hsetup.
  rewrite (wrapper_legacy _ _ _ _ _ _ _ _ Hv), run_legacy_body.
  rewrite Hsetup. split; reflexivity.
Qed.

End Wrapper.

(** The modern scenario: setup yields the null handle, the status query
    yields [-1]; the wrapper returns [-1] and the slot holds null. *)
Lemma modern_returns_queried_status_scenario :
  0x00080000 <= Mock.modern_version
  /\ is_Some (Mock.caller_mem !! Mock.slot)
  /\ run (Mock.library NULL (-1))
       (_rust_wrapper_SoapySDRDevice_setupStream Mock.modern_version
          Mock.dev Mock.slot Mock.RX Mock.fmt Mock.chans 2 Mock.kwargs)
       Mock.caller_world
     = Some (-1, mkWorld (<[Mock.slot := NULL]> Mock.caller_mem) (-1),
             [ObsCall (SoapySDRDevice_setupStream_modern
                         Mock.dev Mock.RX Mock.fmt Mock.chans 2 Mock.kwargs)
                      Mock.caller_mem NULL;
              ObsStore Mock.slot NULL;
              ObsCall SoapySDRDevice_lastStatus
                (<[Mock.slot := NULL]> Mock.caller_mem) (-1)]).
Proof.
  assert (Hv : 0x00080000 <= Mock.modern_version) by (vm_compute; discriminate).
  assert (Hs : is_Some (Mock.caller_mem !! Mock.slot))
    by (exists 0xDEAD; vm_compute; reflexivity).
  split; [exact Hv | split; [exact Hs |]].
  apply (modern_returns_queried_status (Mock.library NULL (-1))
           Mock.modern_version Mock.dev Mock.slot Mock.RX Mock.fmt Mock.chans 2
           Mock.kwargs NULL (-1) Mock.caller_world
           (mkWorld Mock.caller_mem (-1))
           (mkWorld (<[Mock.slot := NULL]> Mock.caller_mem) (-1)) Hv);
    [reflexivity | exact Hs | reflexivity].
Defined.

(** The legacy scenario: the library returns [0] and delivers [0xABCD]
    through the output parameter; the wrapper returns [0] and the caller's
    slot holds [0xABCD]. *)
Lemma legacy_returns_library_status_scenario :
  Mock.legacy_version < 0x00080000
  /\ (run (Mock.library 0xABCD 0)
        (_rust_wrapper_SoapySDRDevice_setupStream Mock.legacy_version
           Mock.dev Mock.slot Mock.RX Mock.fmt Mock.chans 2 Mock.kwargs)
        Mock.caller_world
      = Some (0, mkWorld (<[Mock.slot := 0xABCD]> Mock.caller_mem) 0,
              [ObsCall (SoapySDRDevice_setupStream_legacy
                          Mock.dev Mock.slot Mock.RX Mock.fmt Mock.chans 2
                          Mock.kwargs)
                       Mock.caller_mem 0])
      /\ own_stores
           [ObsCall (SoapySDRDevice_setupStream_legacy
                       Mock.dev Mock.slot Mock.RX Mock.fmt Mock.chans 2
                       Mock.kwargs)
                    Mock.caller_mem 0] = [])
  /\ <[Mock.slot := 0xABCD]> Mock.caller_mem !! Mock.slot = Some 0xABCD.
Proof.
  assert (Hv : Mock.legacy_version < 0x00080000) by (vm_compute; reflexivity).
  split; [exact Hv | split; [| apply lookup_insert_eq]].
  apply (legacy_returns_library_status (Mock.library 0xABCD 0)
           Mock.legacy_version Mock.dev Mock.slot Mock.RX Mock.fmt Mock.chans 2
           Mock.kwargs 0 Mock.caller_world
           (mkWorld (<[Mock.slot := 0xABCD]> Mock.caller_mem) 0) Hv).
  reflexivity.
Defined.

(** ** What a trace records *)

Section Traces.
Context {LibState : Type}.
Variable lib_call : LibCall -> World LibState -> Z * World LibState.

(** A call recorded in a trace was made to the library, in the recorded
    memory, and returned the recorded value. *)
Lemma run_call_sound {A : Type} (p : Prog A) :
  forall (w w' : World LibState) (a : A) (t : list Obs)
         (c : LibCall) (m : Mem) (r : Z),
    run lib_call p w = Some (a, w', t) ->
    In (ObsCall c m r) t ->
    exists w0, mem w0 = m /\ (lib_call c w0).1 = r.
Proof.
  induction p as [a0 | c0 k IH | p0 v0 k IH | p0 k IH];
    intros w w' a t c m r Hrun Hin; simpl in Hrun.
  - injection Hrun as <- <- <-. destruct Hin.
  - destruct (lib_call c0 w) as [r0 w0] eqn:Hc.
    destruct (run lib_call (k r0) w0) as [[[a1 w1] t1]|] eqn:Hk;
      [|discriminate].
    injection Hrun as <- <- <-.
    destruct Hin as [Heq | Hin].
    + injection Heq as <- <- <-. exists w. rewrite Hc. auto.
    + eapply IH; eauto.
  - destruct (store (mem w) p0 v0) as [m'|]; [|discriminate].
    destruct (run lib_call k (set_mem w m')) as [[[a1 w1] t1]|] eqn:Hk;
      [|discriminate].
    injection Hrun as <- <- <-.
    destruct Hin as [Heq | Hin]; [discriminate | eapply IH; eauto].
  - destruct (mem w !! p0) as [x|]; [|discriminate].
    destruct (run lib_call (k x) w) as [[[a1 w1] t1]|] eqn:Hk; [|discriminate].
    injection Hrun as <- <- <-.
    destruct Hin as [Heq | Hin]; [discriminate | eapply IH; eauto].
Qed.

(** A store changes the one cell it names and keeps the library state. *)
Lemma store_frame (m m' : Mem) (p v q : Z) :
  store m p v = Some m' -> q <> p -> m' !! q = m !! q.
Proof.
  intros [_ ->]%store_Some Hq. apply lookup_insert_ne. congruence.
Qed.

Lemma lib_calls_app (t1 t2 : list Obs) :
  lib_calls (t1 ++ t2) = lib_calls t1 ++ lib_calls t2.
Proof. apply omap_app. Qed.

End Traces.

(** ** Handle and status *)

Section Coherence.
Context {LibState : Type}.
Variable lib_call : LibCall -> World LibState -> Z * World LibState.

(** C3, as the code has it.  The wrapper checks nothing, and what it
    delivers is the library's, in every invocation that returns.  Legacy
    build: the status returned and the world the caller sees afterwards,
    output slot included, are the return value and the world of the
    library's one setup call; the wrapper stores nothing.  Modern build: the
    wrapper's one store puts the handle the setup call returned into the
    slot, and the status returned and the final world are those of the
    last-status query made next; whenever that query leaves the slot as
    written, the slot holds a non-null handle exactly when the status is
    success if and only if the library's handle is non-null exactly when
    its status is success. *)
Theorem slot_and_status_are_the_librarys
    (v device out_stream direction format channels numChans args r : Z)
    (w w' : World LibState) (t : list Obs) :
  run lib_call
    (_rust_wrapper_SoapySDRDevice_setupStream v
       device out_stream direction format channels numChans args) w
  = Some (r, w', t) ->
  (v < 0x00080000 ->
   lib_call (SoapySDRDevice_setupStream_legacy
               device out_stream direction format channels numChans args) w
   = (r, w')
   /\ own_stores t = [])
  /\ (0x00080000 <= v ->
      exists h w1,
        lib_call (SoapySDRDevice_setupStream_modern
                    device direction format channels numChans args) w
        = (h, w1)
        /\ lib_call SoapySDRDevice_lastStatus
             (set_mem w1 (<[out_stream := h]> (mem w1))) = (r, w')
        /\ own_stores t = [(out_stream, h)]
        /\ (mem w' !! out_stream = Some h ->
            ((holds_handle (mem w') out_stream <-> success r)
             <-> (h <> NULL <-> success r)))).
Proof.
  intros Hrun.
  apply run_wrapper_inv in Hrun
    as [(Hv & Hcall & ->) | (Hv & h & w1 & Hsetup & _ & Hlast & ->)].
  - split; [intros _; split; [exact Hcall | reflexivity] | intros Hge; lia].
  - split; [intros Hlt; lia | intros _].
    exists h, w1.
    split; [exact Hsetup | split; [exact Hlast | split; [reflexivity|]]].
    intros Hslot.
    assert (Hh : holds_handle (mem w') out_stream <-> h <> NULL).
    { unfold holds_handle. split.
      - intros (h' & Hh' & Hnz). congruence.
      - intros Hnz. exists h. auto. }
    rewrite Hh. reflexivity.
Qed.

End Coherence.

(** C3 as stated fails: against a library whose setup call yields the null
    handle while its status query reports success (a driver that opens no
    stream and raises no error), the modern wrapper returns success with a
    null handle in the slot. *)
Lemma success_with_null_handle :
  run (Mock.library NULL 0)
    (_rust_wrapper_SoapySDRDevice_setupStream Mock.modern_version
       Mock.dev Mock.slot Mock.RX Mock.fmt Mock.chans 2 Mock.kwargs)
    Mock.caller_world
  = Some (0, mkWorld (<[Mock.slot := NULL]> Mock.caller_mem) 0,
          [ObsCall (SoapySDRDevice_setupStream_modern
                      Mock.dev Mock.RX Mock.fmt Mock.chans 2 Mock.kwargs)
                   Mock.caller_mem NULL;
           ObsStore Mock.slot NULL;
           ObsCall SoapySDRDevice_lastStatus
             (<[Mock.slot := NULL]> Mock.caller_mem) 0])
  /\ ~ (holds_handle (<[Mock.slot := NULL]> Mock.caller_mem) Mock.slot
        <-> success 0).
Proof.
  split.
  - vm_compute. reflexivity.
  - intros [_ H]. destruct (H eq_refl) as (h & Hh & Hnz).
    rewrite lookup_insert_eq in Hh. congruence.
Qed.

(** The legacy build breaks the correspondence the other way round when the
    library fails without touching the slot: the status is [-1] and the slot
    still holds the non-null value the caller had there. *)
Lemma failure_with_slot_untouched :
  run (Mock.failing_legacy (-1))
    (_rust_wrapper_SoapySDRDevice_setupStream Mock.legacy_version
       Mock.dev Mock.slot Mock.RX Mock.fmt Mock.chans 2 Mock.kwargs)
    Mock.caller_world
  = Some (-1, mkWorld Mock.caller_mem (-1),
          [ObsCall (SoapySDRDevice_setupStream_legacy
                      Mock.dev Mock.slot Mock.RX Mock.fmt Mock.chans 2
                      Mock.kwargs)
                   Mock.caller_mem (-1)])
  /\ ~ (holds_handle Mock.caller_mem Mock.slot <-> success (-1)).
Proof.
  split.
  - vm_compute. reflexivity.
  - intros [H _]. assert (Hs : success (-1)); [| discriminate Hs].
    apply H. exists 0xDEAD. split; [vm_compute; reflexivity | discriminate].
Qed.

(** A legacy library that fails and leaves the slot alone: the wrapper hands
    back its status [-1] and its world, the stale slot contents included.
    A modern library that yields the null handle with status [0]: the
    wrapper hands back exactly that pair. *)
Lemma slot_and_status_are_the_librarys_scenario :
  (Mock.failing_legacy (-1)
     (SoapySDRDevice_setupStream_legacy
        Mock.dev Mock.slot Mock.RX Mock.fmt Mock.chans 2 Mock.kwargs)
     Mock.caller_world
   = (-1, mkWorld Mock.caller_mem (-1))
   /\ own_stores
        [ObsCall (SoapySDRDevice_setupStream_legacy
                    Mock.dev Mock.slot Mock.RX Mock.fmt Mock.chans 2
                    Mock.kwargs)
                 Mock.caller_mem (-1)] = [])
  /\ (exists h w1,
        Mock.library NULL 0
          (SoapySDRDevice_setupStream_modern
             Mock.dev Mock.RX Mock.fmt Mock.chans 2 Mock.kwargs)
          Mock.caller_world
        = (h, w1)
        /\ Mock.library NULL 0 SoapySDRDevice_lastStatus
             (set_mem w1 (<[Mock.slot := h]> (mem w1)))
           = (0, mkWorld (<[Mock.slot := NULL]> Mock.caller_mem) 0)
        /\ own_stores
             [ObsCall (SoapySDRDevice_setupStream_modern
                         Mock.dev Mock.RX Mock.fmt Mock.chans 2 Mock.kwargs)
                      Mock.caller_mem NULL;
              ObsStore Mock.slot NULL;
              ObsCall SoapySDRDevice_lastStatus
                (<[Mock.slot := NULL]> Mock.caller_mem) 0]
           = [(Mock.slot, h)]
        /\ (mem (mkWorld (<[Mock.slot := NULL]> Mock.caller_mem) 0)
              !! Mock.slot = Some h ->
            ((holds_handle
                (mem (mkWorld (<[Mock.slot := NULL]> Mock.caller_mem) 0))
                Mock.slot
              <-> success 0)
             <-> (h <> NULL <-> success 0)))).
Proof.
  assert (Hlt : Mock.legacy_version < 0x00080000) by (vm_compute; reflexivity).
  assert (Hge : 0x00080000 <= Mock.modern_version) by (vm_compute; discriminate).
  split.
  - refine (proj1 (slot_and_status_are_the_librarys (Mock.failing_legacy (-1))
                     Mock.legacy_version Mock.dev Mock.slot Mock.RX Mock.fmt
                     Mock.chans 2 Mock.kwargs (-1) Mock.caller_world
                     (mkWorld Mock.caller_mem (-1)) _ _) Hlt).
    vm_compute. reflexivity.
  - refine (proj2 (slot_and_status_are_the_librarys (Mock.library NULL 0)
                     Mock.modern_version Mock.dev Mock.slot Mock.RX Mock.fmt
                     Mock.chans 2 Mock.kwargs 0 Mock.caller_world
                     (mkWorld (<[Mock.slot := NULL]> Mock.caller_mem) 0) _ _)
              Hge).
    vm_compute. reflexivity.
Defined.

(** ** Which body is compiled *)

Section Selection.
Context {LibState : Type}.
Variable lib_call : LibCall -> World LibState -> Z * World LibState.

(** C5.  For every value of [SOAPY_SDR_API_VERSION] the preprocessor keeps
    exactly one of the two bodies: the legacy body exactly when the version
    is strictly below [0x00080000], the modern body exactly when it is at or
    above.  The two bodies are different programs, and neither takes the
    version as an input: once the version is fixed, the function is one
    fixed straight-line program.  Accordingly the library calls of a
    returning invocation are those of the one body compiled. *)
Theorem one_body_per_version (v : Z) :
  ((forall device out_stream direction format channels numChans args,
      _rust_wrapper_SoapySDRDevice_setupStream v
        device out_stream direction format channels numChans args
      = legacy_body device out_stream direction format channels numChans args)
   <-> v < 0x00080000)
  /\ ((forall device out_stream direction format channels numChans args,
         _rust_wrapper_SoapySDRDevice_setupStream v
           device out_stream direction format channels numChans args
         = modern_body device out_stream direction format channels numChans args)
      <-> 0x00080000 <= v)
  /\ (forall device out_stream direction format channels numChans args,
        legacy_body device out_stream direction format channels numChans args
        <> modern_body device out_stream direction format channels numChans args)
  /\ (forall device out_stream direction format channels numChans args
             (w w' : World LibState) r t,
        run lib_call
          (_rust_wrapper_SoapySDRDevice_setupStream v
             device out_stream direction format channels numChans args) w
        = Some (r, w', t) ->
        lib_calls t
        = if v <? 0x00080000
          then [SoapySDRDevice_setupStream_legacy
                  device out_stream direction format channels numChans args]
          else [SoapySDRDevice_setupStream_modern
                  device direction format channels numChans args;
                SoapySDRDevice_lastStatus]).
Proof.
  assert (Hne : forall device out_stream direction format channels numChans args,
            legacy_body device out_stream direction format channels numChans args
            <> modern_body device out_stream direction format channels
                 numChans args).
  { intros d o dir f ch n a. unfold legacy_body, modern_body, call.
    simpl. intros H. discriminate H. }
  split; [| split; [| split; [exact Hne|]]].
  - split.
    + intros H. destruct (Z.lt_ge_cases v 0x00080000) as [Hv|Hv]; [exact Hv|].
      exfalso. apply (Hne 0 0 0 0 0 0 0).
      rewrite <- (H 0 0 0 0 0 0 0). apply wrapper_modern, Hv.
    + intros Hv d o dir f ch n a. apply wrapper_legacy, Hv.
  - split.
    + intros H. destruct (Z.lt_ge_cases v 0x00080000) as [Hv|Hv]; [|exact Hv].
      exfalso. apply (Hne 0 0 0 0 0 0 0).
      rewrite <- (H 0 0 0 0 0 0 0). symmetry. apply wrapper_legacy, Hv.
    + intros Hv d o dir f ch n a. apply wrapper_modern, Hv.
  - intros d o dir f ch n a w w' r t Hrun.
    apply run_wrapper_inv in Hrun
      as [(Hv & _ & ->) | (Hv & h & w1 & _ & _ & _ & ->)];
      destruct (Z.ltb_spec v 0x00080000); first [lia | reflexivity].
Qed.

End Selection.

(** Moving the version across the threshold switches the body that runs. *)
Lemma one_body_per_version_scenario :
  lib_calls
    [ObsCall (SoapySDRDevice_setupStream_legacy
                Mock.dev Mock.slot Mock.RX Mock.fmt Mock.chans 2 Mock.kwargs)
             Mock.caller_mem 0]
  = (if Mock.legacy_version <? 0x00080000
     then [SoapySDRDevice_setupStream_legacy
             Mock.dev Mock.slot Mock.RX Mock.fmt Mock.chans 2 Mock.kwargs]
     else [SoapySDRDevice_setupStream_modern
             Mock.dev Mock.RX Mock.fmt Mock.chans 2 Mock.kwargs;
           SoapySDRDevice_lastStatus])
  /\ lib_calls
       [ObsCall (SoapySDRDevice_setupStream_modern
                   Mock.dev Mock.RX Mock.fmt Mock.chans 2 Mock.kwargs)
                Mock.caller_mem 0xABCD;
        ObsStore Mock.slot 0xABCD;
        ObsCall SoapySDRDevice_lastStatus
          (<[Mock.slot := 0xABCD]> Mock.caller_mem) 0]
     = (if Mock.modern_version <? 0x00080000
        then [SoapySDRDevice_setupStream_legacy
                Mock.dev Mock.slot Mock.RX Mock.fmt Mock.chans 2 Mock.kwargs]
        else [SoapySDRDevice_setupStream_modern
                Mock.dev Mock.RX Mock.fmt Mock.chans 2 Mock.kwargs;
              SoapySDRDevice_lastStatus]).
Proof.
  split.
  - refine (proj2 (proj2 (proj2
              (one_body_per_version (Mock.library 0xABCD 0)
                 Mock.legacy_version)))
              Mock.dev Mock.slot Mock.RX Mock.fmt Mock.chans 2 Mock.kwargs
              Mock.caller_world
              (mkWorld (<[Mock.slot := 0xABCD]> Mock.caller_mem) 0) 0 _ _).
    vm_compute. reflexivity.
  - refine (proj2 (proj2 (proj2
              (one_body_per_version (Mock.library 0xABCD 0)
                 Mock.modern_version)))
              Mock.dev Mock.slot Mock.RX Mock.fmt Mock.chans 2 Mock.kwargs
              Mock.caller_world
              (mkWorld (<[Mock.slot := 0xABCD]> Mock.caller_mem) 0) 0 _ _).
    vm_compute. reflexivity.
Defined.

(** C10.  The threshold is the number 524288 = [0x00080000], the packed form
    of version 0.8.0.  The legacy body is the one compiled, and [wrapper.h]
    declares [SoapySDR_free], exactly when [SOAPY_SDR_API_VERSION] is
    strictly below that number. *)
Theorem threshold_is_0_8_0 (v : Z) :
  ((forall device out_stream direction format channels numChans args,
      _rust_wrapper_SoapySDRDevice_setupStream v
        device out_stream direction format channels numChans args
      = legacy_body device out_stream direction format channels numChans args)
   <-> v < 524288)
  /\ (In "SoapySDR_free"%string (wrapper_h_declarations v) <-> v < 524288)
  /\ api_version 0 8 0 = 524288.
Proof.
  split; [| split; [| reflexivity]].
  - split.
    + intros H. destruct (Z.lt_ge_cases v 524288) as [Hv|Hv]; [exact Hv|].
      specialize (H 0 0 0 0 0 0 0).
      rewrite (wrapper_modern 0 0 0 0 0 0 0 v Hv) in H.
      unfold legacy_body, modern_body, call in H. simpl in H. discriminate H.
    + intros Hv d o dir f ch n a. apply wrapper_legacy, Hv.
  - unfold wrapper_h_declarations.
    destruct (Z.ltb_spec v 0x00080000) as [Hv|Hv]; simpl; split.
    + intros _. exact Hv.
    + intros _. right. left. reflexivity.
    + intros [H | []]. discriminate H.
    + intros Hlt. change 524288 with 0x00080000 in Hlt. lia.
Qed.

(** ** Order and number of the library calls *)

Section Calls.
Context {LibState : Type}.
Variable lib_call : LibCall -> World LibState -> Z * World LibState.

(** C4.  Modern build: in every invocation that returns, the library calls
    the wrapper makes are the stream-setup call and then the last-status
    query, and nothing else; whatever lies between those two calls in the
    execution is no library call (it is the wrapper's own store to the
    output slot). *)
Theorem status_query_follows_setup
    (v device out_stream direction format channels numChans args r : Z)
    (w w' : World LibState) (t : list Obs) :
  0x00080000 <= v ->
  run lib_call
    (_rust_wrapper_SoapySDRDevice_setupStream v
       device out_stream direction format channels numChans args) w
  = Some (r, w', t) ->
  lib_calls t
  = [SoapySDRDevice_setupStream_modern
       device direction format channels numChans args;
     SoapySDRDevice_lastStatus]
  /\ (forall t1 m1 h t2 m2 s t3,
        t = t1 ++ ObsCall (SoapySDRDevice_setupStream_modern
                             device direction format channels numChans args)
                     m1 h
               :: t2 ++ ObsCall SoapySDRDevice_lastStatus m2 s :: t3 ->
        lib_calls t2 = [] /\ t2 = [ObsStore out_stream h]).
Proof.
  intros Hv Hrun.
  apply run_wrapper_inv in Hrun
    as [(Hlt & _) | (_ & h & w1 & Hsetup & _ & Hlast & ->)]; [lia|].
  split; [reflexivity|].
  intros t1 m1 h' t2 m2 s t3 Heq.
  destruct t1 as [|o1 t1].
  - simpl in Heq. injection Heq as _ <- Heq.
    destruct t2 as [|o2 t2].
    + simpl in Heq. discriminate Heq.
    + simpl in Heq. injection Heq as <- Heq.
      destruct t2 as [|o3 t2].
      * simpl. auto.
      * simpl in Heq. injection Heq as _ Heq. destruct t2; discriminate Heq.
  - simpl in Heq. injection Heq as _ Heq.
    destruct t1 as [|o2 t1].
    + simpl in Heq. discriminate Heq.
    + simpl in Heq. injection Heq as _ Heq.
      destruct t1 as [|o3 t1].
      * simpl in Heq. discriminate Heq.
      * simpl in Heq. injection Heq as _ Heq. destruct t1; discriminate Heq.
Qed.

(** C7.  In every invocation that returns, the stream-setup entry point is
    called exactly once, and the status the wrapper returns is the value the
    library returned from the last call made: the setup call itself in the
    legacy build, the last-status query in the modern build. *)
Theorem one_setup_call_status_verbatim
    (v device out_stream direction format channels numChans args r : Z)
    (w w' : World LibState) (t : list Obs) :
  run lib_call
    (_rust_wrapper_SoapySDRDevice_setupStream v
       device out_stream direction format channels numChans args) w
  = Some (r, w', t) ->
  length (List.filter is_setupStream (lib_calls t)) = 1%nat
  /\ exists m w0,
       last t
       = Some (ObsCall
                 (if v <? 0x00080000
                  then SoapySDRDevice_setupStream_legacy
                         device out_stream direction format channels numChans
                         args
                  else SoapySDRDevice_lastStatus) m r)
       /\ mem w0 = m
       /\ lib_call
            (if v <? 0x00080000
             then SoapySDRDevice_setupStream_legacy
                    device out_stream direction format channels numChans args
             else SoapySDRDevice_lastStatus) w0 = (r, w').
Proof.
  intros Hrun.
  apply run_wrapper_inv in Hrun
    as [(Hv & Hcall & ->) | (Hv & h & w1 & Hsetup & _ & Hlast & ->)].
  - split; [reflexivity|].
    destruct (Z.ltb_spec v 0x00080000); [|lia].
    exists (mem w), w. auto.
  - split; [reflexivity|].
    destruct (Z.ltb_spec v 0x00080000); [lia|].
    exists (<[out_stream := h]> (mem w1)),
           (set_mem w1 (<[out_stream := h]> (mem w1))). auto.
Qed.

End Calls.

(** The modern scenario again: the two library calls are adjacent. *)
Lemma status_query_follows_setup_scenario :
  0x00080000 <= Mock.modern_version
  /\ lib_calls
       [ObsCall (SoapySDRDevice_setupStream_modern
                   Mock.dev Mock.RX Mock.fmt Mock.chans 2 Mock.kwargs)
                Mock.caller_mem NULL;
        ObsStore Mock.slot NULL;
        ObsCall SoapySDRDevice_lastStatus
          (<[Mock.slot := NULL]> Mock.caller_mem) (-1)]
     = [SoapySDRDevice_setupStream_modern
          Mock.dev Mock.RX Mock.fmt Mock.chans 2 Mock.kwargs;
        SoapySDRDevice_lastStatus].
Proof.
  assert (Hv : 0x00080000 <= Mock.modern_version) by (vm_compute; discriminate).
  split; [exact Hv|].
  refine (proj1 (status_query_follows_setup (Mock.library NULL (-1))
                   Mock.modern_version Mock.dev Mock.slot Mock.RX Mock.fmt
                   Mock.chans 2 Mock.kwargs (-1) Mock.caller_world
                   (mkWorld (<[Mock.slot := NULL]> Mock.caller_mem) (-1))
                   _ Hv _)).
  vm_compute. reflexivity.
Defined.

(** Both scenarios: one setup call each, status handed back as returned. *)
Lemma one_setup_call_status_verbatim_scenario :
  length (List.filter is_setupStream
            (lib_calls
               [ObsCall (SoapySDRDevice_setupStream_legacy
                           Mock.dev Mock.slot Mock.RX Mock.fmt Mock.chans 2
                           Mock.kwargs)
                        Mock.caller_mem 0])) = 1%nat
  /\ length (List.filter is_setupStream
               (lib_calls
                  [ObsCall (SoapySDRDevice_setupStream_modern
                              Mock.dev Mock.RX Mock.fmt Mock.chans 2 Mock.kwargs)
                           Mock.caller_mem NULL;
                   ObsStore Mock.slot NULL;
                   ObsCall SoapySDRDevice_lastStatus
                     (<[Mock.slot := NULL]> Mock.caller_mem) (-1)])) = 1%nat.
Proof.
  split.
  - refine (proj1 (one_setup_call_status_verbatim (Mock.library 0xABCD 0)
                     Mock.legacy_version Mock.dev Mock.slot Mock.RX Mock.fmt
                     Mock.chans 2 Mock.kwargs 0 Mock.caller_world
                     (mkWorld (<[Mock.slot := 0xABCD]> Mock.caller_mem) 0)
                     _ _)).
    vm_compute. reflexivity.
  - refine (proj1 (one_setup_call_status_verbatim (Mock.library NULL (-1))
                     Mock.modern_version Mock.dev Mock.slot Mock.RX Mock.fmt
                     Mock.chans 2 Mock.kwargs (-1) Mock.caller_world
                     (mkWorld (<[Mock.slot := NULL]> Mock.caller_mem) (-1))
                     _ _)).
    vm_compute. reflexivity.
Defined.

(** ** What reaches the library, and what the wrapper touches *)

Section Effects.
Context {LibState : Type}.
Variable lib_call : LibCall -> World LibState -> Z * World LibState.

(** C6.  In every invocation that returns, in either build, the first event
    is the stream-setup call; it is issued in the very memory the caller
    entered with (the wrapper has written nothing before it, so every byte
    reachable through [format], [channels] and [args] is the caller's), and
    it carries the caller's device, direction, format, channels, numChans
    and args values, unchanged and in that order.  No further stream-setup
    call follows. *)
Theorem arguments_reach_library_unchanged
    (v device out_stream direction format channels numChans args r : Z)
    (w w' : World LibState) (t : list Obs) :
  run lib_call
    (_rust_wrapper_SoapySDRDevice_setupStream v
       device out_stream direction format channels numChans args) w
  = Some (r, w', t) ->
  exists c m r0 rest,
    t = ObsCall c m r0 :: rest
    /\ m = mem w
    /\ (forall p n, read_cells m p n = read_cells (mem w) p n)
    /\ is_setupStream c = true
    /\ setup_params c
       = Some (device, direction, format, channels, numChans, args)
    /\ (v < 0x00080000 ->
        c = SoapySDRDevice_setupStream_legacy
              device out_stream direction format channels numChans args)
    /\ (0x00080000 <= v ->
        c = SoapySDRDevice_setupStream_modern
              device direction format channels numChans args)
    /\ List.filter is_setupStream (lib_calls rest) = [].
Proof.
  intros Hrun.
  apply run_wrapper_inv in Hrun
    as [(Hv & Hcall & ->) | (Hv & h & w1 & Hsetup & _ & Hlast & ->)].
  - eexists _, _, _, _. split; [reflexivity|].
    repeat split; auto. intros Hge. lia.
  - eexists _, _, _, _. split; [reflexivity|].
    repeat split; auto. intros Hlt. lia.
Qed.

(** C8.  In every invocation that returns, every event of the execution is a
    delegated stream-setup or last-status call or a store to the output
    slot; the wrapper stores at most once; it never calls closeStream,
    unmake or SoapySDR_free.  With a library whose calls leave the world
    alone, the world after the invocation differs from the world before at
    most in the output slot. *)
Theorem effects_confined_to_slot
    (v device out_stream direction format channels numChans args r : Z)
    (w w' : World LibState) (t : list Obs) :
  run lib_call
    (_rust_wrapper_SoapySDRDevice_setupStream v
       device out_stream direction format channels numChans args) w
  = Some (r, w', t) ->
  Forall (delegated_or_slot_write out_stream) t
  /\ (length (own_stores t) <= 1)%nat
  /\ (forall c m x, In (ObsCall c m x) t ->
        (forall d s, c <> SoapySDRDevice_closeStream d s)
        /\ (forall d, c <> SoapySDRDevice_unmake d)
        /\ (forall p, c <> SoapySDR_free p))
  /\ ((forall c w0, (lib_call c w0).2 = w0) ->
      lib w' = lib w
      /\ forall p, p <> out_stream -> mem w' !! p = mem w !! p).
Proof.
  intros Hrun.
  apply run_wrapper_inv in Hrun
    as [(Hv & Hcall & ->) | (Hv & h & w1 & Hsetup & _ & Hlast & ->)].
  - repeat split.
    + repeat constructor.
    + simpl. lia.
    + destruct H as [[= <- _ _] | []]. discriminate.
    + destruct H as [[= <- _ _] | []]. discriminate.
    + destruct H as [[= <- _ _] | []]. discriminate.
    + specialize (H (SoapySDRDevice_setupStream_legacy
                       device out_stream direction format channels numChans
                       args) w).
      rewrite Hcall in H. simpl in H. congruence.
    + intros p _.
      specialize (H (SoapySDRDevice_setupStream_legacy
                       device out_stream direction format channels numChans
                       args) w).
      rewrite Hcall in H. simpl in H. congruence.
  - repeat split.
    + constructor; [left; reflexivity|].
      constructor; [reflexivity|].
      constructor; [right; reflexivity | constructor].
    + simpl. lia.
    + destruct H as [[= <- _ _] | [[=] | [[= <- _ _] | []]]]; discriminate.
    + destruct H as [[= <- _ _] | [[=] | [[= <- _ _] | []]]]; discriminate.
    + destruct H as [[= <- _ _] | [[=] | [[= <- _ _] | []]]]; discriminate.
    + pose proof (H (SoapySDRDevice_setupStream_modern
                       device direction format channels numChans args) w) as H1.
      pose proof (H SoapySDRDevice_lastStatus
                    (set_mem w1 (<[out_stream := h]> (mem w1)))) as H2.
      rewrite Hsetup in H1. rewrite Hlast in H2. simpl in H1, H2.
      subst w1 w'. reflexivity.
    + intros p Hp.
      pose proof (H (SoapySDRDevice_setupStream_modern
                       device direction format channels numChans args) w) as H1.
      pose proof (H SoapySDRDevice_lastStatus
                    (set_mem w1 (<[out_stream := h]> (mem w1)))) as H2.
      rewrite Hsetup in H1. rewrite Hlast in H2. simpl in H1, H2.
      subst w1 w'. simpl. apply lookup_insert_ne. congruence.
Qed.

(** C9.  Who writes the output slot.  Modern build: the wrapper stores the
    handle the setup call returned, whatever it is, before it queries the
    status; when the status query is made the slot already holds that
    handle, also when the status then turns out non-zero.  Legacy build: the
    wrapper stores nothing; the slot is as the library's setup call left it,
    so if that call did not touch it, it still holds what the caller had
    there. *)
Theorem slot_writer_by_build
    (v device out_stream direction format channels numChans args r : Z)
    (w w' : World LibState) (t : list Obs) :
  run lib_call
    (_rust_wrapper_SoapySDRDevice_setupStream v
       device out_stream direction format channels numChans args) w
  = Some (r, w', t) ->
  (0x00080000 <= v ->
   exists h m2,
     (lib_call (SoapySDRDevice_setupStream_modern
                  device direction format channels numChans args) w).1 = h
     /\ t = [ObsCall (SoapySDRDevice_setupStream_modern
                        device direction format channels numChans args)
                     (mem w) h;
             ObsStore out_stream h;
             ObsCall SoapySDRDevice_lastStatus m2 r]
     /\ own_stores t = [(out_stream, h)]
     /\ m2 !! out_stream = Some h)
  /\ (v < 0x00080000 ->
      own_stores t = []
      /\ w' = (lib_call (SoapySDRDevice_setupStream_legacy
                           device out_stream direction format channels numChans
                           args) w).2
      /\ (mem (lib_call (SoapySDRDevice_setupStream_legacy
                           device out_stream direction format channels numChans
                           args) w).2 !! out_stream
          = mem w !! out_stream ->
          mem w' !! out_stream = mem w !! out_stream)).
Proof.
  intros Hrun.
  apply run_wrapper_inv in Hrun
    as [(Hv & Hcall & ->) | (Hv & h & w1 & Hsetup & _ & Hlast & ->)].
  - split; [lia|]. intros _. rewrite Hcall. simpl. auto.
  - split; [|lia]. intros _.
    exists h, (<[out_stream := h]> (mem w1)). rewrite Hsetup.
    repeat split. apply lookup_insert_eq.
Qed.

End Effects.

(** The legacy scenario: the library is called with the caller's values, in
    the caller's memory, where it reads the format "CF32" and the channels
    [0; 1]. *)
Lemma arguments_reach_library_unchanged_scenario :
  (exists c m r0 rest,
     [ObsCall (SoapySDRDevice_setupStream_legacy
                 Mock.dev Mock.slot Mock.RX Mock.fmt Mock.chans 2 Mock.kwargs)
              Mock.caller_mem 0]
     = ObsCall c m r0 :: rest
     /\ m = mem Mock.caller_world
     /\ (forall p n, read_cells m p n = read_cells (mem Mock.caller_world) p n)
     /\ is_setupStream c = true
     /\ setup_params c
        = Some (Mock.dev, Mock.RX, Mock.fmt, Mock.chans, 2, Mock.kwargs)
     /\ (Mock.legacy_version < 0x00080000 ->
         c = SoapySDRDevice_setupStream_legacy
               Mock.dev Mock.slot Mock.RX Mock.fmt Mock.chans 2 Mock.kwargs)
     /\ (0x00080000 <= Mock.legacy_version ->
         c = SoapySDRDevice_setupStream_modern
               Mock.dev Mock.RX Mock.fmt Mock.chans 2 Mock.kwargs)
     /\ List.filter is_setupStream (lib_calls rest) = [])
  /\ read_cells Mock.caller_mem Mock.fmt 5 = Some [67; 70; 51; 50; 0]
  /\ read_cells Mock.caller_mem Mock.chans 2 = Some [0; 1].
Proof.
  split; [| split; vm_compute; reflexivity].
  refine (arguments_reach_library_unchanged (Mock.library 0xABCD 0)
            Mock.legacy_version Mock.dev Mock.slot Mock.RX Mock.fmt Mock.chans 2
            Mock.kwargs 0 Mock.caller_world
            (mkWorld (<[Mock.slot := 0xABCD]> Mock.caller_mem) 0) _ _).
  vm_compute. reflexivity.
Defined.

(** An inert library in the modern build: after the invocation only the
    output slot differs; the format bytes, for one, are as before. *)
Lemma effects_confined_to_slot_scenario :
  Forall (delegated_or_slot_write Mock.slot)
    [ObsCall (SoapySDRDevice_setupStream_modern
                Mock.dev Mock.RX Mock.fmt Mock.chans 2 Mock.kwargs)
             Mock.caller_mem 0xABCD;
     ObsStore Mock.slot 0xABCD;
     ObsCall SoapySDRDevice_lastStatus
       (<[Mock.slot := 0xABCD]> Mock.caller_mem) 0]
  /\ <[Mock.slot := 0xABCD]> Mock.caller_mem !! Mock.fmt
     = Mock.caller_mem !! Mock.fmt.
Proof.
  assert (Hrun :
    run (Mock.inert 0xABCD 0)
      (_rust_wrapper_SoapySDRDevice_setupStream Mock.modern_version
         Mock.dev Mock.slot Mock.RX Mock.fmt Mock.chans 2 Mock.kwargs)
      Mock.caller_world_inert
    = Some (0, mkWorld (<[Mock.slot := 0xABCD]> Mock.caller_mem) tt,
            [ObsCall (SoapySDRDevice_setupStream_modern
                        Mock.dev Mock.RX Mock.fmt Mock.chans 2 Mock.kwargs)
                     Mock.caller_mem 0xABCD;
             ObsStore Mock.slot 0xABCD;
             ObsCall SoapySDRDevice_lastStatus
               (<[Mock.slot := 0xABCD]> Mock.caller_mem) 0]))
    by (vm_compute; reflexivity).
  destruct (effects_confined_to_slot (Mock.inert 0xABCD 0) _ _ _ _ _ _ _ _ _
              _ _ _ Hrun) as (Hall & _ & _ & Hframe).
  split; [exact Hall|].
  refine (proj2 (Hframe _) Mock.fmt _).
  - intros c w0. destruct c; reflexivity.
  - vm_compute. discriminate.
Defined.

(** Modern: a busy device; the stale slot contents are replaced by the null
    handle although the status is [-1].  Legacy: a library that fails
    without touching the slot; the stale contents are still there. *)
Lemma slot_writer_by_build_scenario :
  (exists h m2,
     (Mock.library NULL (-1)
        (SoapySDRDevice_setupStream_modern
           Mock.dev Mock.RX Mock.fmt Mock.chans 2 Mock.kwargs)
        Mock.caller_world).1 = h
     /\ [ObsCall (SoapySDRDevice_setupStream_modern
                    Mock.dev Mock.RX Mock.fmt Mock.chans 2 Mock.kwargs)
                 Mock.caller_mem NULL;
         ObsStore Mock.slot NULL;
         ObsCall SoapySDRDevice_lastStatus
           (<[Mock.slot := NULL]> Mock.caller_mem) (-1)]
        = [ObsCall (SoapySDRDevice_setupStream_modern
                      Mock.dev Mock.RX Mock.fmt Mock.chans 2 Mock.kwargs)
                   (mem Mock.caller_world) h;
           ObsStore Mock.slot h;
           ObsCall SoapySDRDevice_lastStatus m2 (-1)]
     /\ own_stores
          [ObsCall (SoapySDRDevice_setupStream_modern
                      Mock.dev Mock.RX Mock.fmt Mock.chans 2 Mock.kwargs)
                   Mock.caller_mem NULL;
           ObsStore Mock.slot NULL;
           ObsCall SoapySDRDevice_lastStatus
             (<[Mock.slot := NULL]> Mock.caller_mem) (-1)]
        = [(Mock.slot, h)]
     /\ m2 !! Mock.slot = Some h)
  /\ mem (mkWorld Mock.caller_mem (-1)) !! Mock.slot
     = mem Mock.caller_world !! Mock.slot.
Proof.
  assert (Hge : 0x00080000 <= Mock.modern_version) by (vm_compute; discriminate).
  assert (Hlt : Mock.legacy_version < 0x00080000) by (vm_compute; reflexivity).
  split.
  - refine (proj1 (slot_writer_by_build (Mock.library NULL (-1))
                     Mock.modern_version Mock.dev Mock.slot Mock.RX Mock.fmt
                     Mock.chans 2 Mock.kwargs (-1) Mock.caller_world
                     (mkWorld (<[Mock.slot := NULL]> Mock.caller_mem) (-1))
                     _ _) Hge).
    vm_compute. reflexivity.
  - refine (proj2 (proj2 (proj2 (slot_writer_by_build (Mock.failing_legacy (-1))
                     Mock.legacy_version Mock.dev Mock.slot Mock.RX Mock.fmt
                     Mock.chans 2 Mock.kwargs (-1) Mock.caller_world
                     (mkWorld Mock.caller_mem (-1))
                     _ _) Hlt)) _).
    + vm_compute. reflexivity.
    + reflexivity.
Defined.

(** ** Further properties of the wrapper *)

Section Sequencing.
Context {LibState : Type}.
Variable lib_call : LibCall -> World LibState -> Z * World LibState.

(** Running [m] and then [f]: the second part starts in the world the first
    one left, and the traces follow one another. *)
Lemma run_bind {A B : Type} (m : Prog A) (f : A -> Prog B) :
  forall w : World LibState,
    run lib_call (bind m f) w
    = match run lib_call m w with
      | Some (a, w1, t1) =>
          match run lib_call (f a) w1 with
          | Some (b, w2, t2) => Some (b, w2, t1 ++ t2)
          | None => None
          end
      | None => None
      end.
Proof.
  induction m as [a0 | c0 k IH | p0 v0 k IH | p0 k IH]; intros w; simpl.
  - destruct (run lib_call (f a0) w) as [[[b w2] t2]|]; reflexivity.
  - destruct (lib_call c0 w) as [r0 w0]. rewrite IH.
    destruct (run lib_call (k r0) w0) as [[[a1 w1] t1]|]; [|reflexivity].
    destruct (run lib_call (f a1) w1) as [[[b w2] t2]|]; reflexivity.
  - destruct (store (mem w) p0 v0) as [m'|]; [|reflexivity]. rewrite IH.
    destruct (run lib_call k (set_mem w m')) as [[[a1 w1] t1]|]; [|reflexivity].
    destruct (run lib_call (f a1) w1) as [[[b w2] t2]|]; reflexivity.
  - destruct (mem w !! p0) as [x|]; [|reflexivity]. rewrite IH.
    destruct (run lib_call (k x) w) as [[[a1 w1] t1]|]; [|reflexivity].
    destruct (run lib_call (f a1) w1) as [[[b w2] t2]|]; reflexivity.
Qed.

(** X1.  The one step of the modern body that can be undefined is its own
    store.  In the modern build, once the library's setup call has returned,
    the invocation has a result exactly when [out_stream] is the address of
    an allocated cell at that point; with a null or dangling [out_stream]
    there is none. *)
Theorem modern_result_iff_slot_writable
    (v device out_stream direction format channels numChans args h : Z)
    (w w1 : World LibState) :
  0x00080000 <= v ->
  lib_call (SoapySDRDevice_setupStream_modern
              device direction format channels numChans args) w = (h, w1) ->
  (is_Some
     (run lib_call
        (_rust_wrapper_SoapySDRDevice_setupStream v
           device out_stream direction format channels numChans args) w)
   <-> is_Some (mem w1 !! out_stream))
  /\ (mem w1 !! out_stream = None ->
      run lib_call
        (_rust_wrapper_SoapySDRDevice_setupStream v
           device out_stream direction format channels numChans args) w
      = None).
Proof.
  intros Hv Hsetup.
  rewrite (wrapper_modern _ _ _ _ _ _ _ _ Hv), run_modern_body.
  rewrite Hsetup. simpl. unfold store.
  destruct (mem w1 !! out_stream) as [x|]; split.
  - split; intros _; eexists; reflexivity.
  - discriminate.
  - split; intros [y Hy]; discriminate Hy.
  - reflexivity.
Qed.


End Sequencing.

(** The caller's slot at 400 is allocated, address 0 is not: the modern
    build has a result with the first and none with the second. *)
Lemma modern_result_iff_slot_writable_scenario :
  (is_Some
     (run (Mock.library 0xABCD 0)
        (_rust_wrapper_SoapySDRDevice_setupStream Mock.modern_version
           Mock.dev Mock.slot Mock.RX Mock.fmt Mock.chans 2 Mock.kwargs)
        Mock.caller_world)
   <-> is_Some (Mock.caller_mem !! Mock.slot))
  /\ run (Mock.library 0xABCD 0)
       (_rust_wrapper_SoapySDRDevice_setupStream Mock.modern_version
          Mock.dev NULL Mock.RX Mock.fmt Mock.chans 2 Mock.kwargs)
       Mock.caller_world
     = None.
Proof.
  assert (Hge : 0x00080000 <= Mock.modern_version) by (vm_compute; discriminate).
  split.
  - refine (proj1 (modern_result_iff_slot_writable (Mock.library 0xABCD 0)
                     Mock.modern_version Mock.dev Mock.slot Mock.RX Mock.fmt
                     Mock.chans 2 Mock.kwargs 0xABCD Mock.caller_world
                     (mkWorld Mock.caller_mem 0) Hge _)).
    reflexivity.
  - refine (proj2 (modern_result_iff_slot_writable (Mock.library 0xABCD 0)
                     Mock.modern_version Mock.dev NULL Mock.RX Mock.fmt
                     Mock.chans 2 Mock.kwargs 0xABCD Mock.caller_world
                     (mkWorld Mock.caller_mem 0) Hge _) _).
    + reflexivity.
    + vm_compute. reflexivity.
Defined.


(** ** One signature over both conventions *)

Section Builds.
Context {LibState : Type}.
Variables libL libM : LibCall -> World LibState -> Z * World LibState.

(** X2.  The two builds look the same to the caller when the two libraries
    do the same work: if the legacy library's setup call, given the slot,
    has the outcome that the modern library's setup call, a store of its
    handle to the slot, and its last-status query have together, then a
    legacy build and a modern build return the same status and leave the
    same world. *)
Theorem builds_agree
    (vL vM device out_stream direction format channels numChans args h : Z)
    (w w1 : World LibState) :
  vL < 0x00080000 ->
  0x00080000 <= vM ->
  libM (SoapySDRDevice_setupStream_modern
          device direction format channels numChans args) w = (h, w1) ->
  is_Some (mem w1 !! out_stream) ->
  libL (SoapySDRDevice_setupStream_legacy
          device out_stream direction format channels numChans args) w
  = libM SoapySDRDevice_lastStatus
      (set_mem w1 (<[out_stream := h]> (mem w1))) ->
  fst <$> run libL
            (_rust_wrapper_SoapySDRDevice_setupStream vL
               device out_stream direction format channels numChans args) w
  = fst <$> run libM
              (_rust_wrapper_SoapySDRDevice_setupStream vM
                 device out_stream direction format channels numChans args) w.
Proof.
  intros HvL HvM Hsetup Hslot Hsame.
  rewrite (wrapper_legacy _ _ _ _ _ _ _ _ HvL), run_legacy_body.
  rewrite (wrapper_modern _ _ _ _ _ _ _ _ HvM), run_modern_body.
  rewrite Hsame, Hsetup. simpl.
  assert (store (mem w1) out_stream h = Some (<[out_stream := h]> (mem w1)))
    as -> by (apply store_Some; auto).
  reflexivity.
Qed.

End Builds.

(** The library double serves both conventions alike: status [0] and the
    handle [0xABCD] in the slot, whichever build calls it. *)
Lemma builds_agree_scenario :
  fst <$> run (Mock.library 0xABCD 0)
            (_rust_wrapper_SoapySDRDevice_setupStream Mock.legacy_version
               Mock.dev Mock.slot Mock.RX Mock.fmt Mock.chans 2 Mock.kwargs)
            Mock.caller_world
  = fst <$> run (Mock.library 0xABCD 0)
              (_rust_wrapper_SoapySDRDevice_setupStream Mock.modern_version
                 Mock.dev Mock.slot Mock.RX Mock.fmt Mock.chans 2 Mock.kwargs)
              Mock.caller_world.
Proof.
  refine (builds_agree (Mock.library 0xABCD 0) (Mock.library 0xABCD 0)
            Mock.legacy_version Mock.modern_version
            Mock.dev Mock.slot Mock.RX Mock.fmt Mock.chans 2 Mock.kwargs
            0xABCD Mock.caller_world (mkWorld Mock.caller_mem 0)
            _ _ _ _ _).
  - vm_compute. reflexivity.
  - vm_compute. discriminate.
  - reflexivity.
  - exists 0xDEAD. vm_compute. reflexivity.
  - reflexivity.
Defined.

(** ** The threshold in terms of version numbers *)

Lemma land_shiftl_low (a b k : Z) :
  0 <= k -> 0 <= b < 2 ^ k -> Z.land (Z.shiftl a k) b = 0.
Proof.
  intros Hk Hb. apply Z.bits_inj'. intros n Hn.
  rewrite Z.land_spec, Z.bits_0.
  destruct (Z.lt_ge_cases n k) as [Hlt | Hge].
  - rewrite Z.shiftl_spec_low by exact Hlt. reflexivity.
  - rewrite <- (Z.mod_small b (2 ^ k)) by exact Hb.
    rewrite Z.mod_pow2_bits_high by lia. apply andb_false_r.
Qed.

(** With fields in range the packed version is the weighted sum. *)
Lemma api_version_sum (major minor increment : Z) :
  0 <= minor < 256 -> 0 <= increment < 65536 ->
  api_version major minor increment
  = major * 16777216 + minor * 65536 + increment.
Proof.
  intros Hmin Hinc. unfold api_version.
  assert (H1 : Z.lor (Z.shiftl major 24) (Z.shiftl minor 16)
               = Z.shiftl (major * 256 + minor) 16).
  { rewrite <- Z.add_nocarry_lor.
    - rewrite !Z.shiftl_mul_pow2 by lia. lia.
    - apply land_shiftl_low; [lia|].
      rewrite Z.shiftl_mul_pow2 by lia. lia. }
  rewrite H1, <- Z.add_nocarry_lor.
  - rewrite Z.shiftl_mul_pow2 by lia. lia.
  - apply land_shiftl_low; lia.
Qed.

(** X4.  In terms of version numbers: for a version [major.minor.increment]
    whose fields fit their places ([major] and [minor] below 256,
    [increment] below 65536, so that the packed number is below [2^32]),
    the legacy body is compiled, and [wrapper.h] declares [SoapySDR_free],
    exactly for the versions 0.0 to 0.7, whatever the increment; every
    version from 0.8.0 on gets the modern body. *)
Theorem legacy_exactly_below_0_8
    (major minor increment : Z) :
  0 <= major < 256 -> 0 <= minor < 256 -> 0 <= increment < 65536 ->
  ((forall device out_stream direction format channels numChans args,
      _rust_wrapper_SoapySDRDevice_setupStream
        (api_version major minor increment)
        device out_stream direction format channels numChans args
      = legacy_body device out_stream direction format channels numChans args)
   <-> major = 0 /\ minor < 8)
  /\ ((forall device out_stream direction format channels numChans args,
         _rust_wrapper_SoapySDRDevice_setupStream
           (api_version major minor increment)
           device out_stream direction format channels numChans args
         = modern_body device out_stream direction format channels numChans
             args)
      <-> 1 <= major \/ 8 <= minor)
  /\ (In "SoapySDR_free"%string
        (wrapper_h_declarations (api_version major minor increment))
      <-> major = 0 /\ minor < 8)
  /\ 0 <= api_version major minor increment < 2 ^ 32.
Proof.
  intros Hmaj Hmin Hinc.
  pose proof (api_version_sum major minor increment Hmin Hinc) as Hsum.
  assert (Hfit : 0 <= api_version major minor increment < 2 ^ 32).
  { rewrite Hsum. change (2 ^ 32) with 4294967296. lia. }
  assert (Hlt : api_version major minor increment < 0x00080000
                <-> major = 0 /\ minor < 8).
  { rewrite Hsum. change 0x00080000 with 524288. lia. }
  assert (Hne : legacy_body 0 0 0 0 0 0 0 <> modern_body 0 0 0 0 0 0 0).
  { unfold legacy_body, modern_body, call. simpl. intros H. discriminate H. }
  split; [| split; [| split; [| exact Hfit]]].
  - rewrite <- Hlt. split.
    + intros H.
      destruct (Z.lt_ge_cases (api_version major minor increment) 0x00080000)
        as [Hv|Hv]; [exact Hv|].
      exfalso. apply Hne. rewrite <- (H 0 0 0 0 0 0 0).
      apply wrapper_modern, Hv.
    + intros Hv d o dir f ch n a. apply wrapper_legacy, Hv.
  - split.
    + intros H.
      destruct (Z.lt_ge_cases (api_version major minor increment) 0x00080000)
        as [Hv|Hv].
      * exfalso. apply Hne. rewrite <- (H 0 0 0 0 0 0 0).
        symmetry. apply wrapper_legacy, Hv.
      * destruct (Z.lt_ge_cases minor 8); [|lia].
        destruct (Z.eq_dec major 0); [|lia].
        exfalso. apply (Z.lt_irrefl 0x00080000).
        eapply Z.le_lt_trans; [exact Hv | apply Hlt; auto].
    + intros Hge d o dir f ch n a. apply wrapper_modern.
      destruct (Z.lt_ge_cases (api_version major minor increment) 0x00080000)
        as [Hv|Hv]; [| exact Hv].
      apply Hlt in Hv. lia.
  - rewrite <- Hlt. unfold wrapper_h_declarations.
    destruct (Z.ltb_spec (api_version major minor increment) 0x00080000)
      as [Hv|Hv]; simpl; split.
    + intros _. exact Hv.
    + intros _. right. left. reflexivity.
    + intros [H | []]. discriminate H.
    + intros Hv'. lia.
Qed.

(** Version 0.7.65535 is still legacy. *)
Lemma legacy_exactly_below_0_8_scenario :
  (forall device out_stream direction format channels numChans args,
     _rust_wrapper_SoapySDRDevice_setupStream (api_version 0 7 65535)
       device out_stream direction format channels numChans args
     = legacy_body device out_stream direction format channels numChans args)
  /\ In "SoapySDR_free"%string
       (wrapper_h_declarations (api_version 0 7 65535)).
Proof.
  destruct (legacy_exactly_below_0_8 0 7 65535) as (Hleg & _ & Hfree & _);
    [lia | lia | lia |].
  split; [apply Hleg | apply Hfree]; lia.
Defined.
